(** * DB2Handler: a shallow embedding of
      mindsdb/integrations/handlers/db2_handler/db2_handler.py

    The handler is glue between the host's handler contract and the
    ibm_db_dbi driver.  The driver, pandas and the SQL renderer are not part
    of the repository: they are taken as parameters ([Driver], [Externals]).
    Every driver call may raise; the handler's methods are written in a
    state-and-exception monad over the handler object, the driver's world
    and the trace of the calls made so far. *)

From Stdlib Require Import String Ascii List ZArith Bool Lia.
From stdpp Require Import base option gmap strings pretty.

Local Open Scope string_scope.
Local Open Scope list_scope.

(** ** Text *)

Module Text.

(** ASCII lower-case letters, 'a' .. 'z'. *)
Definition is_lower (c : ascii) : bool :=
  let n := nat_of_ascii c in (97 <=? n)%nat && (n <=? 122)%nat.

(** [str.upper] on one character of ASCII text: a-z go to A-Z, every
    other character stays. *)
Definition upper_char (c : ascii) : ascii :=
  if is_lower c then ascii_of_nat (nat_of_ascii c - 32) else c.

(** [str.upper()]. *)
Fixpoint upper (s : string) : string :=
  match s with
  | EmptyString => EmptyString
  | String c s' => String (upper_char c) (upper s')
  end.



End Text.

(** ** Python values, exceptions and responses *)

(** The values found in [connection_data] and in result rows. *)
Inductive value : Type :=
| VStr (s : string)
| VInt (z : Z)
| VNone.

(** What an f-string writes for a value. *)
Definition format (v : value) : string :=
  match v with
  | VStr s => s
  | VInt z => pretty z
  | VNone => "None"
  end.

(** An exception object: its class name and [str(e)]. *)
Record Exn : Type := mkExn { exn_type : string; exn_str : string }.

Definition ValueError (msg : string) : Exn := mkExn "ValueError" msg.
Definition KeyError (key : string) : Exn := mkExn "KeyError" ("'" +:+ key +:+ "'").
Definition AttributeError (msg : string) : Exn := mkExn "AttributeError" msg.

Definition Row : Type := list value.

(** A pandas data frame, as the rows and the column names it was built
    from.  Whether [pd.DataFrame(...)] raises on them is left to
    [Externals]. *)
Record DataFrame : Type := mkDataFrame { df_data : list Row; df_columns : list string }.

Inductive RESPONSE_TYPE : Type := TABLE | OK | ERROR.

(** Modelled from the spec: mindsdb.integrations.libs.response.HandlerResponse,
    the result envelope (table / acknowledgment / error); the fields are the
    constructor arguments the handler passes. *)
Record Response : Type := mkResponse {
  resp_type : RESPONSE_TYPE;
  data_frame : option DataFrame;
  error_message : option string
}.

(** Modelled from the spec: mindsdb.integrations.libs.response.HandlerStatusResponse,
    a success flag and an optional error message. *)
Record StatusResponse : Type := mkStatus {
  success : bool;
  status_error_message : option string
}.

(** ** The driver *)

Section Handler.

Context {World Conn Cursor ASTNode : Type}.

(** ibm_db_dbi as the handler uses it.  Each call takes the driver's world
    and gives the next one, with either the exception raised or the value
    returned. *)
Record Driver : Type := mkDriver {
  pconnect : string -> World -> (Exn + Conn) * World;
  conn_close : Conn -> World -> (Exn + unit) * World;
  conn_cursor : Conn -> World -> (Exn + Cursor) * World;
  conn_commit : Conn -> World -> (Exn + unit) * World;
  conn_rollback : Conn -> World -> (Exn + unit) * World;
  cur_execute : Cursor -> string -> World -> (Exn + unit) * World;
  cur_result_set_produced : Cursor -> World -> bool;
  cur_fetchall : Cursor -> World -> (Exn + list Row) * World;
  cur_description : Cursor -> World -> list (string * list value);
  cur_exit : Cursor -> World -> (Exn + unit) * World
}.

(** pandas and the SQL renderer. *)
Record Externals : Type := mkExternals {
  (** [Some e] when [pd.DataFrame(data, columns=cols)] raises [e]. *)
  frame_error : list Row -> list string -> option Exn;
  (** [SqlalchemyRender(DB2Dialect).get_string(q, with_failback=True)]. *)
  get_string : ASTNode -> Exn + string
}.

(** The calls the handler makes, in the order it makes them. *)
Inductive Event : Type :=
| EvPconnect (cs : string)
| EvClose (c : Conn)
| EvCursor (c : Conn)
| EvExecute (cur : Cursor) (q : string)
| EvFetchall (cur : Cursor)
| EvCommit (c : Conn)
| EvRollback (c : Conn)
| EvCursorExit (cur : Cursor)
| EvLogError (msg : string).

Definition is_commit (ev : Event) : bool :=
  match ev with EvCommit _ => true | _ => false end.
Definition is_rollback (ev : Event) : bool :=
  match ev with EvRollback _ => true | _ => false end.
Definition is_close (ev : Event) : bool :=
  match ev with EvClose _ => true | _ => false end.
Definition is_driver_call (ev : Event) : bool :=
  match ev with EvLogError _ => false | _ => true end.

(** The driver calls among the events of a trace. *)
Definition driver_calls (tr : list Event) : list Event := filter is_driver_call tr.

(** The attributes of a [DB2Handler] object. *)
Record Handler : Type := mkHandler {
  connection_data : gmap string value;
  connection : option Conn;
  is_connected : bool
}.

(** [DB2Handler.__init__]. *)
Definition init (connection_data : gmap string value) : Handler :=
  {| connection_data := connection_data; connection := None; is_connected := false |}.

Record Machine : Type := mkMachine {
  self : Handler;
  world : World;
  trace : list Event
}.

(** ** The monad: state, and Python exceptions on the left *)

Definition M (A : Type) : Type := Machine -> (Exn + A) * Machine.

Definition ret {A} (a : A) : M A := fun m => (inr a, m).
Definition raise {A} (e : Exn) : M A := fun m => (inl e, m).
Definition bind {A B} (c : M A) (k : A -> M B) : M B :=
  fun m => match c m with
           | (inr a, m') => k a m'
           | (inl e, m') => (inl e, m')
           end.

Notation "x <- c ;; k" := (bind c (fun x => k))
  (at level 100, c at next level, right associativity).
Notation "c ;;; k" := (bind c (fun _ => k))
  (at level 100, right associativity).

(** [try: body  except Exception as e: handler e]. *)
Definition try_except {A} (body : M A) (handler : Exn -> M A) : M A :=
  fun m => match body m with
           | (inr a, m') => (inr a, m')
           | (inl e, m') => handler e m'
           end.

(** [try: body  finally: fin]: [fin] always runs, and sees how [body]
    ended; an exception of [fin] replaces the outcome of [body]. *)
Definition try_finally {A} (body : M A) (fin : Exn + A -> M unit) : M A :=
  fun m => match body m with
           | (r, m') => match fin r m' with
                        | (inr _, m'') => (r, m'')
                        | (inl e, m'') => (inl e, m'')
                        end
           end.

Definition when (b : bool) (c : M unit) : M unit := if b then c else ret tt.

Definition get_self : M Handler := fun m => (inr (self m), m).
Definition set_connection (c : option Conn) : M unit :=
  fun m => (inr tt, {| self := {| connection_data := connection_data (self m);
                                  connection := c;
                                  is_connected := is_connected (self m) |};
                       world := world m; trace := trace m |}).
Definition set_is_connected (b : bool) : M unit :=
  fun m => (inr tt, {| self := {| connection_data := connection_data (self m);
                                  connection := connection (self m);
                                  is_connected := b |};
                       world := world m; trace := trace m |}).

(** A driver call: recorded in the trace, run on the world. *)
Definition call {A} (ev : Event) (op : World -> (Exn + A) * World) : M A :=
  fun m => match op (world m) with
           | (r, w) => (r, {| self := self m; world := w; trace := trace m ++ [ev] |})
           end.

(** Reading an attribute of a driver object. *)
Definition peek {A} (f : World -> A) : M A := fun m => (inr (f (world m)), m).

(** [logger.error(msg)]. *)
Definition logger_error (msg : string) : M unit :=
  fun m => (inr tt, {| self := self m; world := world m; trace := trace m ++ [EvLogError msg] |}).

(** [obj.attr] on [self.connection] or on the value of [connect()], which
    may be [None]. *)
Definition deref (o : option Conn) (attr : string) : M Conn :=
  match o with
  | Some c => ret c
  | None => raise (AttributeError ("'NoneType' object has no attribute '" +:+ attr +:+ "'"))
  end.

Variable drv : Driver.
Variable ext : Externals.

(** ** connect *)

Definition required_keys : list string := ["host"; "user"; "password"; "database"].

(** [key in self.connection_data]. *)
Definition has_key (d : gmap string value) (key : string) : bool :=
  bool_decide (is_Some (d !! key)).

(** [self.connection_data.get(key)]. *)
Definition dict_get (d : gmap string value) (key : string) : value :=
  default VNone (d !! key).

(** Lines 64-71: the connection string; [None] stands for the [KeyError]
    of a subscript whose key is absent. *)
Definition connection_string (d : gmap string value) : option string :=
  database ← d !! "database";
  host ← d !! "host";
  user ← d !! "user";
  password ← d !! "password";
  let s := "DRIVER=IBM DB2 ODBC DRIVER;DATABASE=" +:+ format database
           +:+ ";HOST=" +:+ format host
           +:+ ";PROTOCOL=TCPIP;UID=" +:+ format user
           +:+ ";PWD=" +:+ format password +:+ ";" in
  let s := match d !! "port" with
           | Some port => s +:+ "PORT=" +:+ format port +:+ ";"
           | None => s
           end in
  let s := match d !! "schema" with
           | Some schema => s +:+ "CURRENTSCHEMA=" +:+ format schema +:+ ";"
           | None => s
           end in
  Some s.

Definition missing_parameters : Exn :=
  ValueError "Required parameters (host, user, password, database) must be provided.".

(** [DB2Handler.connect]: the value returned is [self.connection], or
    [None] when the driver's exception was logged and dropped. *)
Definition connect : M (option Conn) :=
  h <- get_self ;;
  if is_connected h then ret (connection h)
  else if negb (forallb (has_key (connection_data h)) required_keys)
  then raise missing_parameters
  else
    match connection_string (connection_data h) with
    | None => raise (KeyError "database")
    | Some cs =>
        try_except
          (c <- call (EvPconnect cs) (pconnect drv cs) ;;
           set_connection (Some c) ;;;
           set_is_connected true ;;;
           h' <- get_self ;;
           ret (connection h'))
          (fun e =>
             logger_error ("Error while connecting to "
                           +:+ format (dict_get (connection_data h) "database")
                           +:+ ", " +:+ exn_str e) ;;;
             ret None)
    end.

(** ** disconnect *)

Definition disconnect : M unit :=
  h <- get_self ;;
  if negb (is_connected h) then ret tt
  else
    c <- deref (connection h) "close" ;;
    call (EvClose c) (conn_close drv c) ;;;
    set_is_connected false.

(** ** check_connection *)

Definition check_connection : M StatusResponse :=
  let responseCode := mkStatus false None in
  h <- get_self ;;
  let need_to_close := negb (is_connected h) in
  responseCode <-
    try_finally
      (try_except
         (connect ;;;
          ret (mkStatus true (status_error_message responseCode)))
         (fun e =>
            logger_error ("Error connecting to database "
                          +:+ format (dict_get (connection_data h) "database")
                          +:+ ", " +:+ exn_str e +:+ "!") ;;;
            ret (mkStatus (success responseCode) (Some (exn_str e)))))
      (fun r =>
         let responseCode := match r with inr rc => rc | inl _ => responseCode end in
         when (success responseCode && need_to_close) disconnect ;;;
         h' <- get_self ;;
         when (negb (success responseCode) && is_connected h')
              (set_is_connected false)) ;;
  ret responseCode.

(** ** native_query *)

(** [pd.DataFrame(data, columns=columns)]. *)
Definition pd_DataFrame (data : list Row) (columns : list string) : M DataFrame :=
  match frame_error ext data columns with
  | Some e => raise e
  | None => ret (mkDataFrame data columns)
  end.

Definition native_query (query : string) : M Response :=
  h <- get_self ;;
  let need_to_close := negb (is_connected h) in
  let query := Text.upper query in
  conn <- connect ;;
  c <- deref conn "cursor" ;;
  cur <- call (EvCursor c) (conn_cursor drv c) ;;
  response <-
    try_finally
      (try_except
         (call (EvExecute cur query) (cur_execute drv cur query) ;;;
          produced <- peek (cur_result_set_produced drv cur) ;;
          response <-
            (if produced then
               result <- call (EvFetchall cur) (cur_fetchall drv cur) ;;
               description <- peek (cur_description drv cur) ;;
               df <- pd_DataFrame result (map fst description) ;;
               ret (mkResponse TABLE (Some df) None)
             else ret (mkResponse OK None None)) ;;
          h1 <- get_self ;;
          c1 <- deref (connection h1) "commit" ;;
          call (EvCommit c1) (conn_commit drv c1) ;;;
          ret response)
         (fun e =>
            logger_error ("Error running query: " +:+ query +:+ " on "
                          +:+ format (dict_get (connection_data h) "database")
                          +:+ "!") ;;;
            let response := mkResponse ERROR None (Some (exn_str e)) in
            h1 <- get_self ;;
            c1 <- deref (connection h1) "rollback" ;;
            call (EvRollback c1) (conn_rollback drv c1) ;;;
            ret response))
      (fun _ => call (EvCursorExit cur) (cur_exit drv cur)) ;;
  when need_to_close disconnect ;;;
  ret response.

(** ** query *)

Definition query (q : ASTNode) : M Response :=
  query_str <- (fun m => (get_string ext q, m)) ;;
  native_query query_str.

End Handler.

Arguments Driver : clear implicits.
Arguments Externals : clear implicits.
Arguments Event : clear implicits.
Arguments Handler : clear implicits.
Arguments Machine : clear implicits.

Arguments connect : simpl never.
Arguments disconnect : simpl never.
Arguments check_connection : simpl never.
Arguments native_query : simpl never.

(** ** A small driver to run the handler on *)

Module Demo.

Definition OperationalError (msg : string) : Exn := mkExn "OperationalError" msg.
Definition ProgrammingError (msg : string) : Exn := mkExn "ProgrammingError" msg.

Definition unreachable : Exn :=
  OperationalError "SQL30081N  A communication error has been detected.".
Definition syntax_error : Exn :=
  ProgrammingError "SQL0104N  An unexpected token was found.".

(** The world is the last statement run, if any.  The server is up or
    down; SELECT statements produce a result set, INSERT statements do
    not, anything else is a syntax error. *)
Definition driver (up : bool) : Driver (option string) nat nat := {|
  pconnect := fun _ w => if up then (inr 7%nat, w) else (inl unreachable, w);
  conn_close := fun _ w => (inr tt, w);
  conn_cursor := fun c w => (inr (c + 1)%nat, w);
  conn_commit := fun _ w => (inr tt, w);
  conn_rollback := fun _ w => (inr tt, w);
  cur_execute := fun _ q w =>
    if String.prefix "SELECT" q || String.prefix "INSERT" q
    then (inr tt, Some q) else (inl syntax_error, w);
  cur_result_set_produced := fun _ w =>
    match w with Some q => String.prefix "SELECT" q | None => false end;
  cur_fetchall := fun _ w => (inr [[VInt 1; VStr "ann"]; [VInt 2; VStr "bob"]], w);
  cur_description := fun _ w => [("ID", [VInt 4]); ("NAME", [VInt 12])];
  cur_exit := fun _ w => (inr tt, w)
|}.

(** The abstract query is its own rendering. *)
Definition externals : Externals string := {|
  frame_error := fun _ _ => None;
  get_string := fun q => inr q
|}.

Definition full_config : gmap string value :=
  <["host" := VStr "db.example"]>
  (<["user" := VStr "alice"]>
  (<["password" := VStr "s3cret"]>
  (<["database" := VStr "SAMPLE"]> ∅))).

Definition no_password : gmap string value :=
  <["host" := VStr "db.example"]>
  (<["user" := VStr "alice"]>
  (<["database" := VStr "SAMPLE"]> ∅)).

Definition fresh (d : gmap string value) : Machine (option string) nat nat :=
  {| self := init d; world := None; trace := [] |}.

Definition connected (d : gmap string value) : Machine (option string) nat nat :=
  {| self := {| connection_data := d; connection := Some 7%nat; is_connected := true |};
     world := None; trace := [] |}.

End Demo.

(** ** Machines of the demo driver *)

Module Run.

Import Demo.

Definition up := driver true.
Definition down := driver false.
Definition dsn : string :=
  "DRIVER=IBM DB2 ODBC DRIVER;DATABASE=SAMPLE;HOST=db.example;PROTOCOL=TCPIP;UID=alice;PWD=s3cret;".

(** The machine once [connect] has opened connection 7. *)
Definition opened : Machine (option string) nat nat :=
  {| self := {| connection_data := full_config; connection := Some 7%nat;
                is_connected := true |};
     world := None; trace := [EvPconnect dsn] |}.

End Run.

(** ** The rest of the handler: __del__, get_tables, get_columns *)

Section Catalog.

Context {World Conn Cursor ASTNode : Type}.

Local Notation "x <- c ;; k" := (bind c (fun x => k))
  (at level 100, c at next level, right associativity).
Local Notation "c ;;; k" := (bind c (fun _ => k))
  (at level 100, right associativity).

(** The metadata calls of an ibm_db_dbi connection: the [current_schema]
    attribute, [tables(schema)] and [columns(table_name=...)].  The last two
    give a list of dictionaries. *)
Record Metadata : Type := mkMetadata {
  conn_current_schema : Conn -> World -> (Exn + value) * World;
  conn_tables : Conn -> value -> World -> (Exn + list (gmap string value)) * World;
  conn_columns : Conn -> value -> World -> (Exn + list (gmap string value)) * World
}.

(** A metadata call: run on the world.  The trace keeps the connection,
    cursor and transaction calls, and these are none of them. *)
Definition metadata_call {A} (op : World -> (Exn + A) * World) : @M World Conn Cursor A :=
  fun m => match op (world m) with
           | (r, w) => (r, {| self := self m; world := w; trace := trace m |})
           end.

(** [d[key]] on a dictionary of the driver. *)
Definition subscript (d : gmap string value) (key : string) : @M World Conn Cursor value :=
  match d !! key with
  | Some v => ret v
  | None => raise (KeyError key)
  end.

(** A [for] loop, or a list comprehension, that builds a list: the first
    exception ends it. *)
Fixpoint for_each {A B} (f : A -> @M World Conn Cursor B) (l : list A)
  : @M World Conn Cursor (list B) :=
  match l with
  | [] => ret []
  | x :: l' => y <- f x ;; ys <- for_each f l' ;; ret (y :: ys)
  end.

(** Python truth of a value, and [isinstance(v, str)]. *)
Definition truthy (v : value) : bool :=
  match v with
  | VStr s => negb (String.eqb s "")
  | VInt z => negb (Z.eqb z 0)
  | VNone => false
  end.
Definition is_str (v : value) : bool :=
  match v with VStr _ => true | _ => false end.

Definition is_cursor_exit (ev : @Event Conn Cursor) : bool :=
  match ev with EvCursorExit _ => true | _ => false end.
Definition is_pconnect (ev : @Event Conn Cursor) : bool :=
  match ev with EvPconnect _ => true | _ => false end.

(** A computation that leaves a view [f] of the machine as it found it,
    however it ends. *)
Definition keeps {X A} (f : @Machine World Conn Cursor -> X)
    (c : @M World Conn Cursor A) : Prop :=
  forall m r m', c m = (r, m') -> f m' = f m.

(** The same for a view of the handler's attributes. *)
Definition preserves {X A} (f : @Handler Conn -> X) (c : @M World Conn Cursor A) : Prop :=
  keeps (fun m => f (self m)) c.

(** The keys [connect] reads. *)
Definition connection_keys : list string :=
  ["host"; "user"; "password"; "database"; "port"; "schema"].

Variable drv : Driver World Conn Cursor.
Variable ext : Externals ASTNode.
Variable cat : Metadata.

(** [DB2Handler.__del__]. *)
Definition __del__ : @M World Conn Cursor unit :=
  h <- get_self ;;
  when (is_connected h) (disconnect drv).

(** [pd.DataFrame(records)] on a list of dictionaries that all have the
    same keys in the same order: the keys are the columns, and there is no
    column when there is no record. *)
Definition pd_DataFrame_records (records : list (list (string * value)))
  : @M World Conn Cursor DataFrame :=
  pd_DataFrame ext (map (map snd) records)
    (match records with
     | [] => []
     | r :: _ => map fst r
     end).

(** The keys [get_tables] reads in an entry of the driver's list. *)
Definition table_keys : list string := ["TABLE_NAME"; "TABLE_SCHEM"; "TABLE_TYPE"].

(** The row of [get_tables] for one entry of the driver's list. *)
Definition table_row (d : gmap string value) : Row :=
  [dict_get d "TABLE_NAME"; dict_get d "TABLE_SCHEM"; dict_get d "TABLE_TYPE"].

(** One pass of the loop of [get_tables], lines 179-185. *)
Definition table_record (table : gmap string value)
  : @M World Conn Cursor (list (string * value)) :=
  name <- subscript table "TABLE_NAME" ;;
  schem <- subscript table "TABLE_SCHEM" ;;
  type <- subscript table "TABLE_TYPE" ;;
  ret [("TABLE_NAME", name); ("TABLE_SCHEMA", schem); ("TABLE_TYPE", type)].

(** [DB2Handler.get_tables]. *)
Definition get_tables : @M World Conn Cursor Response :=
  connect drv ;;;
  h <- get_self ;;
  c <- deref (connection h) "tables" ;;
  c' <- deref (connection h) "current_schema" ;;
  schema <- metadata_call (conn_current_schema cat c') ;;
  result <- metadata_call (conn_tables cat c schema) ;;
  tables <- for_each table_record result ;;
  df <- pd_DataFrame_records tables ;;
  ret (mkResponse TABLE (Some df) None).

Definition invalid_table_name : Exn := ValueError "Invalid table name provided.".

(** [DB2Handler.get_columns]. *)
Definition get_columns (table_name : value) : @M World Conn Cursor Response :=
  if negb (truthy table_name) || negb (is_str table_name)
  then raise invalid_table_name
  else
    connect drv ;;;
    h <- get_self ;;
    c <- deref (connection h) "columns" ;;
    result <- metadata_call (conn_columns cat c table_name) ;;
    columns <- for_each (fun column => subscript column "COLUMN_NAME") result ;;
    df <- pd_DataFrame ext (map (fun name => [name]) columns) ["COLUMN_NAME"] ;;
    ret (mkResponse TABLE (Some df) None).

End Catalog.

Arguments Metadata : clear implicits.
Arguments __del__ : simpl never.
Arguments get_tables : simpl never.
Arguments get_columns : simpl never.

(** ** Drivers that fail *)

Module Faulty.

(** Which calls of the driver raise. *)
Record faults : Type := mkFaults {
  f_cursor : bool; f_fetchall : bool; f_commit : bool;
  f_rollback : bool; f_exit : bool; f_close : bool
}.

Definition none : faults := mkFaults false false false false false false.

Definition lost : Exn :=
  Demo.OperationalError "SQL30108N  A connection failed and has been re-established.".

Definition fail_if {A} (b : bool) (ok : (Exn + A) * option string) (w : option string)
  : (Exn + A) * option string :=
  if b then (inl lost, w) else ok.

(** The demo driver, server up, with the calls of [f] raising. *)
Definition driver (f : faults) : Driver (option string) nat nat := {|
  pconnect := pconnect (Demo.driver true);
  conn_close := fun c w => fail_if (f_close f) (conn_close (Demo.driver true) c w) w;
  conn_cursor := fun c w => fail_if (f_cursor f) (conn_cursor (Demo.driver true) c w) w;
  conn_commit := fun c w => fail_if (f_commit f) (conn_commit (Demo.driver true) c w) w;
  conn_rollback := fun c w => fail_if (f_rollback f) (conn_rollback (Demo.driver true) c w) w;
  cur_execute := cur_execute (Demo.driver true);
  cur_result_set_produced := cur_result_set_produced (Demo.driver true);
  cur_fetchall := fun c w => fail_if (f_fetchall f) (cur_fetchall (Demo.driver true) c w) w;
  cur_description := cur_description (Demo.driver true);
  cur_exit := fun c w => fail_if (f_exit f) (cur_exit (Demo.driver true) c w) w
|}.

Definition shape_error : Exn :=
  ValueError "2 columns passed, passed data had 3 columns".

(** pandas refusing every frame. *)
Definition no_frames : Externals string := {|
  frame_error := fun _ _ => Some shape_error;
  get_string := fun q => inr q
|}.

End Faulty.

(** ** A catalog for the demo driver *)

Module DemoCatalog.

Definition entry (name type : string) : gmap string value :=
  <["TABLE_NAME" := VStr name]>
  (<["TABLE_SCHEM" := VStr "ALICE"]>
  (<["TABLE_TYPE" := VStr type]>
  (<["REMARKS" := VNone]> ∅))).

Definition column (name : string) : gmap string value :=
  <["COLUMN_NAME" := VStr name]> (<["TYPE_NAME" := VStr "INTEGER"]> ∅).

(** Two tables in the current schema; table T has two columns, any other
    table none. *)
Definition metadata : Metadata (option string) nat := {|
  conn_current_schema := fun _ w => (inr (VStr "ALICE"), w);
  conn_tables := fun _ _ w => (inr [entry "T" "TABLE"; entry "V" "VIEW"], w);
  conn_columns := fun _ name w =>
    match name with
    | VStr "T" => (inr [column "ID"; column "NAME"], w)
    | _ => (inr [], w)
    end
|}.

(** A catalog whose second entry lacks TABLE_TYPE. *)
Definition broken : Metadata (option string) nat := {|
  conn_current_schema := fun _ w => (inr (VStr "ALICE"), w);
  conn_tables := fun _ _ w =>
    (inr [entry "T" "TABLE"; delete "TABLE_TYPE" (entry "V" "VIEW")], w);
  conn_columns := fun _ _ w => (inr [], w)
|}.

(** A handler that was connected and has disconnected: the handle stays. *)
Definition closed : Machine (option string) nat nat :=
  {| self := {| connection_data := Demo.full_config; connection := Some 7%nat;
                is_connected := false |};
     world := None; trace := [] |}.

End DemoCatalog.

(** * Properties *)

(** ** Text *)





Section Properties.

Context {World Conn Cursor ASTNode : Type}.
Variable drv : Driver World Conn Cursor.
Variable ext : Externals ASTNode.

Abbreviation Machine := (Machine World Conn Cursor).
Abbreviation Event := (Event Conn Cursor).

(** ** The configuration check *)

Lemma has_key_lookup (d : gmap string value) (k : string) :
  has_key d k = true <-> exists v, d !! k = Some v.
Proof.
  unfold has_key. rewrite bool_decide_eq_true. reflexivity.
Qed.

Lemma required_keys_connection_string (d : gmap string value) :
  forallb (has_key d) required_keys = true <->
  exists cs, connection_string d = Some cs.
Proof.
  unfold required_keys, connection_string; simpl.
  rewrite !andb_true_iff, !has_key_lookup. split.
  - intros ([h Hh] & [u Hu] & [p Hp] & [db Hdb] & _).
    rewrite Hh, Hu, Hp, Hdb; simpl. eauto.
  - intros [cs H].
    destruct (d !! "database") as [db|]; [| discriminate].
    destruct (d !! "host") as [h|]; [| discriminate].
    destruct (d !! "user") as [u|]; [| discriminate].
    destruct (d !! "password") as [pw|]; [| discriminate].
    eauto 10.
Qed.

Lemma missing_key_check (d : gmap string value) (k : string) :
  In k required_keys -> d !! k = None ->
  forallb (has_key d) required_keys = false.
Proof.
  intros Hin Hk.
  destruct (forallb (has_key d) required_keys) eqn:E; [| reflexivity].
  rewrite forallb_forall in E. specialize (E k Hin).
  apply has_key_lookup in E as [v Hv]. congruence.
Qed.

(** ** connect *)

Ltac run :=
  unfold native_query, check_connection, disconnect, connect, pd_DataFrame,
    bind, try_except, try_finally, when, get_self, set_connection,
    set_is_connected, call, peek, logger_error, deref, ret, raise in *;
  cbn [fst snd self world trace connection is_connected connection_data
       success status_error_message negb andb] in *.

Lemma connect_connected (m : Machine) :
  is_connected (self m) = true ->
  connect drv m = (inr (connection (self m)), m).
Proof.
  intros H. run. rewrite H. reflexivity.
Qed.

Lemma connect_opens (m : Machine) (cs : string) (c : Conn) (w : World) :
  is_connected (self m) = false ->
  connection_string (connection_data (self m)) = Some cs ->
  pconnect drv cs (world m) = (inr c, w) ->
  connect drv m =
    (inr (Some c),
     {| self := {| connection_data := connection_data (self m);
                   connection := Some c; is_connected := true |};
        world := w; trace := trace m ++ [EvPconnect cs] |}).
Proof.
  intros Hd Hcs Hp. run. rewrite Hd.
  rewrite (proj2 (required_keys_connection_string _) (ex_intro _ cs Hcs)).
  simpl. rewrite Hcs, Hp. reflexivity.
Qed.

Lemma connect_swallows (m : Machine) (cs : string) (e : Exn) (w : World) :
  is_connected (self m) = false ->
  connection_string (connection_data (self m)) = Some cs ->
  pconnect drv cs (world m) = (inl e, w) ->
  connect drv m =
    (inr None,
     {| self := self m; world := w;
        trace := trace m ++
                 [EvPconnect cs;
                  EvLogError ("Error while connecting to "
                       +:+ format (dict_get (connection_data (self m)) "database")
                       +:+ ", " +:+ exn_str e)] |}).
Proof.
  intros Hd Hcs Hp. run. rewrite Hd.
  rewrite (proj2 (required_keys_connection_string _) (ex_intro _ cs Hcs)).
  simpl. rewrite Hcs, Hp. cbn. rewrite <- app_assoc. reflexivity.
Qed.

(** What [connect] leaves behind, however it ends. *)
Lemma connect_spec (m m' : Machine) (r : Exn + option Conn) :
  connect drv m = (r, m') ->
  connection_data (self m') = connection_data (self m) /\
  (is_connected (self m) = true -> m' = m) /\
  match r with
  | inr (Some c) => is_connected (self m') = true /\ connection (self m') = Some c
  | _ => is_connected (self m') = is_connected (self m)
  end.
Proof.
  intros H. run.
  destruct (is_connected (self m)) eqn:Hc.
  - inversion H; subst. repeat split; auto.
    destruct (connection (self m')); auto.
  - destruct (forallb _ _); simpl in H.
    + destruct (connection_string _); [| inversion H; subst; auto].
      destruct (pconnect _ _ _) as [[e | c] w]; inversion H; subst; simpl;
        repeat split; auto; discriminate.
    + inversion H; subst; auto.
Qed.

(** C2.  With [connection_data] missing one of host, user, password and
    database, [connect] on a handler that is not connected raises the
    [ValueError] of line 62 and leaves the machine as it was: the handler's
    attributes, the driver's world and the trace, so that no driver call
    was made. *)
Theorem connect_missing_key (m : Machine) (k : string) :
  is_connected (self m) = false ->
  In k required_keys ->
  connection_data (self m) !! k = None ->
  connect drv m = (inl missing_parameters, m)
  /\ exn_type missing_parameters = "ValueError".
Proof.
  intros Hd Hin Hk. split; [| reflexivity].
  run. rewrite Hd, (missing_key_check _ k Hin Hk). reflexivity.
Qed.

(** ** disconnect *)

Lemma disconnect_closes (m : Machine) (c : Conn) (w : World) :
  is_connected (self m) = true ->
  connection (self m) = Some c ->
  conn_close drv c (world m) = (inr tt, w) ->
  disconnect drv m =
    (inr tt,
     {| self := {| connection_data := connection_data (self m);
                   connection := Some c; is_connected := false |};
        world := w; trace := trace m ++ [EvClose c] |}).
Proof.
  intros Hc Hconn Hclose. run. rewrite Hc, Hconn. cbn.
  rewrite Hclose. cbn. rewrite Hconn. reflexivity.
Qed.

Lemma disconnect_noop (m : Machine) :
  is_connected (self m) = false -> disconnect drv m = (inr tt, m).
Proof.
  intros H. run. rewrite H. reflexivity.
Qed.

Lemma disconnect_returns (m m' : Machine) (u : unit) :
  disconnect drv m = (inr u, m') -> is_connected (self m') = false.
Proof.
  intros H. run.
  destruct (is_connected (self m)) eqn:Hc; cbn in H.
  - destruct (connection (self m)) as [c |]; cbn in H; [| discriminate].
    destruct (conn_close drv c (world m)) as [[e | []] w]; cbn in H;
      inversion H; reflexivity.
  - inversion H; subst; assumption.
Qed.


(** ** check_connection *)

(** A driver error during the check: [connect] has dropped it, and the
    check reports success. *)
Lemma check_connection_driver_error (m : Machine) (cs : string) (e : Exn) (w : World) :
  is_connected (self m) = false ->
  connection_string (connection_data (self m)) = Some cs ->
  pconnect drv cs (world m) = (inl e, w) ->
  fst (check_connection drv m) = inr (mkStatus true None).
Proof.
  intros Hd Hcs Hp.
  unfold check_connection, bind at 1, get_self. cbn.
  unfold bind at 1, try_finally, try_except, bind at 1.
  rewrite (connect_swallows m cs e w Hd Hcs Hp). cbn.
  rewrite Hd. cbn. unfold bind at 1.
  rewrite disconnect_noop by assumption. reflexivity.
Qed.

(** C9.  On a handler that is not connected, a [check_connection] that
    returns leaves the handler not connected, whatever the status; when the
    check opened a connection, the driver's [close] is called on it, and
    the check returns when that call does. *)
Theorem check_connection_restores (m : Machine) :
  is_connected (self m) = false ->
  (forall st m', check_connection drv m = (inr st, m') ->
                 is_connected (self m') = false)
  /\ (forall cs c w1 w2,
         connection_string (connection_data (self m)) = Some cs ->
         pconnect drv cs (world m) = (inr c, w1) ->
         conn_close drv c w1 = (inr tt, w2) ->
         exists m', check_connection drv m = (inr (mkStatus true None), m')
                    /\ is_connected (self m') = false
                    /\ trace m' = trace m ++ [EvPconnect cs; EvClose c]).
Proof.
  intros Hd. split.
  - intros st m' H.
    unfold check_connection, bind at 1, get_self in H. cbn in H.
    unfold bind at 1, try_finally, try_except, bind at 1 in H.
    rewrite Hd in H. cbn in H.
    destruct (connect drv m) as [[e | oc] m1] eqn:Hc.
    + apply connect_spec in Hc as (_ & _ & Hf). rewrite Hd in Hf.
      unfold ret, bind, when, get_self, set_is_connected in H; cbn in H.
      rewrite Hf in H. cbn in H.
      inversion H; subst. assumption.
    + unfold ret, bind at 1, when in H; cbn in H.
      destruct (disconnect drv m1) as [[e | u] m2] eqn:Hdis; [discriminate |].
      apply disconnect_returns in Hdis.
      unfold bind, get_self, ret in H. cbn in H.
      inversion H; subst. assumption.
  - intros cs c w1 w2 Hcs Hp Hclose.
    unfold check_connection, bind at 1, get_self. cbn.
    unfold bind at 1, try_finally, try_except, bind at 1.
    rewrite (connect_opens m cs c w1 Hd Hcs Hp). cbn.
    rewrite Hd. cbn. unfold bind at 1.
    erewrite disconnect_closes; [| reflexivity | reflexivity | exact Hclose].
    cbn. eexists. split; [reflexivity |]. split; [reflexivity |].
    cbn. rewrite <- app_assoc. reflexivity.
Qed.

(** ** native_query *)

Ltac run_query :=
  unfold native_query, pd_DataFrame, bind, try_except, try_finally, when,
    get_self, call, peek, logger_error, deref, ret, raise in *;
  cbn in *.

Ltac run_disconnect Hflag Hconn :=
  unfold disconnect, bind, get_self, deref, call, set_is_connected, ret, raise;
  cbn; rewrite ?Hflag, ?Hconn; cbn.

(** Closes a goal [exists new rest, tr = tr1 ++ new /\ calls new = l ++ rest /\ _]
    on an explicit trace. *)
Ltac trace_shape :=
  rewrite <- ?app_assoc; cbn;
  eexists; eexists; split; [reflexivity |];
  split; [reflexivity |]; first [reflexivity | auto].

(** Case analysis on the innermost call that decides how a run goes on. *)
Ltac split_run H :=
  match type of H with
  | context [match ?x with _ => _ end] =>
      lazymatch x with
      | context [match _ with _ => _ end] => fail
      | _ => destruct x eqn:?
      end
  end; cbn in H; try discriminate H.


(** C6.  The handler has its connection [c] and the cursor [cur], the
    statement runs and the driver reports no result set.  Then commit is
    called on [c] right after the execution, and only once.  A response
    other than an error that [native_query] returns is the bare OK
    response, without a data frame, and it returns it when commit, the
    cursor's exit and close return. *)
Theorem native_query_acknowledges
    (q : string) (m m1 : Machine) (c : Conn) (cur : Cursor) (w2 w3 : World) :
  connect drv m = (inr (Some c), m1) ->
  conn_cursor drv c (world m1) = (inr cur, w2) ->
  cur_execute drv cur (Text.upper q) w2 = (inr tt, w3) ->
  cur_result_set_produced drv cur w3 = false ->
  let ok := mkResponse OK None None in
  (exists new rest,
      trace (snd (native_query drv ext q m)) = trace m1 ++ new
      /\ driver_calls new =
           [EvCursor c; EvExecute cur (Text.upper q); EvCommit c] ++ rest
      /\ filter is_commit rest = [])
  /\ (forall r, fst (native_query drv ext q m) = inr r ->
                resp_type r <> ERROR -> r = ok /\ data_frame r = None)
  /\ (forall w4 w5,
         conn_commit drv c w3 = (inr tt, w4) ->
         cur_exit drv cur w4 = (inr tt, w5) ->
         (is_connected (self m) = true \/ exists w6, conn_close drv c w5 = (inr tt, w6)) ->
         fst (native_query drv ext q m) = inr ok).
Proof.
  intros Hc Hcur Hex Hnone ok.
  pose proof (connect_spec _ _ _ Hc) as (Hdata & Hsame & Hflag & Hconn).
  run_query. rewrite Hc. cbn. rewrite Hcur. cbn. rewrite Hex. cbn.
  rewrite Hnone. cbn. rewrite Hconn. cbn.
  split; [| split].
  - destruct (conn_commit drv c w3) as [[ec | []] w4]; cbn;
      rewrite ?Hconn; cbn;
      [ destruct (conn_rollback drv c w4) as [[er | []] w4']; cbn;
        destruct (cur_exit drv cur w4') as [[ex | []] w5]; cbn
      | destruct (cur_exit drv cur w4) as [[ex | []] w5]; cbn ];
      try (destruct (is_connected (self m)); cbn;
           [| run_disconnect Hflag Hconn;
              destruct (conn_close drv c w5) as [[ecl | []] w6]; cbn ]);
      trace_shape.
  - intros r.
    destruct (conn_commit drv c w3) as [[ec | []] w4]; cbn;
      rewrite ?Hconn; cbn;
      [ destruct (conn_rollback drv c w4) as [[er | []] w4']; cbn;
        destruct (cur_exit drv cur w4') as [[ex | []] w5]; cbn
      | destruct (cur_exit drv cur w4) as [[ex | []] w5]; cbn ];
      try discriminate;
      (destruct (is_connected (self m)); cbn;
       [| destruct (disconnect drv _) as [[ed | []] m2] ]);
      cbn; intros H Hne; inversion H; subst; cbn in *;
      solve [ split; reflexivity | contradiction ].
  - intros w4 w5 Hcm Hx Hclose. rewrite Hcm. cbn. rewrite Hx. cbn.
    destruct (is_connected (self m)); cbn; [reflexivity |].
    destruct Hclose as [Hclose | [w6 Hclose]]; [discriminate |].
    run_disconnect Hflag Hconn. rewrite Hclose. reflexivity.
Qed.


(** C8.  A [native_query] that returns leaves [is_connected] as it
    found it: false again for a handler that was not connected (the
    connection opened for the call has been closed), still true for one
    that was. *)
Theorem native_query_restores
    (q : string) (m m' : Machine) (r : Response) :
  native_query drv ext q m = (inr r, m') ->
  is_connected (self m') = is_connected (self m).
Proof.
  intros H. run_query.
  destruct (connect drv m) as [[e | [c |]] m1] eqn:Hc; cbn in H;
    try discriminate H.
  pose proof (connect_spec _ _ _ Hc) as (Hdata & Hsame & Hflag & Hconn).
  destruct (is_connected (self m)) eqn:Hm; cbn in H.
  - rewrite (Hsame eq_refl) in *.
    repeat (rewrite ?Hconn in H; cbn in H; split_run H).
    all: inversion H; subst; cbn; assumption.
  - repeat (rewrite ?Hconn in H; cbn in H; split_run H).
    all: inversion H; subst; cbn.
    all: match goal with
         | Hd : disconnect drv _ = (inr _, _) |- _ =>
             apply disconnect_returns in Hd; exact Hd
         end.
Qed.


(** ** query *)

(** C10.  [query] is [native_query] on the text the renderer gives for
    the abstract query: same response, same machine afterwards, same calls;
    when the renderer raises, [query] raises the same exception and
    nothing has been called. *)
Theorem query_delegates (q : ASTNode) (m : Machine) :
  (forall s, get_string ext q = inr s ->
             query drv ext q m = native_query drv ext s m)
  /\ (forall e, get_string ext q = inl e -> query drv ext q m = (inl e, m)).
Proof.
  split; intros x H; unfold query, bind at 1; rewrite H; reflexivity.
Qed.

End Properties.

(** * The handler on the demo driver *)


(** C1.  The server is down and the configuration is complete: the
    driver's [pconnect] raises, no connection is established, and
    [check_connection] still answers success, with no error message. *)
Theorem check_connection_success_on_driver_error :
  let m := Demo.fresh Demo.full_config in
  connection_string (connection_data (self m)) = Some Run.dsn
  /\ fst (pconnect Run.down Run.dsn (world m)) = inl Demo.unreachable
  /\ fst (check_connection Run.down m) = inr (mkStatus true None)
  /\ connection (self (snd (check_connection Run.down m))) = None
  /\ driver_calls (trace (snd (check_connection Run.down m))) = [EvPconnect Run.dsn].
Proof.
  cbv zeta. repeat split; vm_compute; reflexivity.
Qed.

Lemma connect_missing_key_witness :
  has_key Demo.no_password "password" = false
  /\ connect Run.up (Demo.fresh Demo.no_password)
     = (inl missing_parameters, Demo.fresh Demo.no_password).
Proof.
  split; [vm_compute; reflexivity |].
  apply (connect_missing_key Run.up (Demo.fresh Demo.no_password) "password").
  - reflexivity.
  - simpl; tauto.
  - vm_compute; reflexivity.
Defined.


Lemma check_connection_restores_witness :
  is_connected (self (Demo.fresh Demo.full_config)) = false
  /\ exists m', check_connection Run.up (Demo.fresh Demo.full_config)
                = (inr (mkStatus true None), m')
                /\ is_connected (self m') = false
                /\ trace m' = [EvPconnect Run.dsn; EvClose 7%nat].
Proof.
  split; [reflexivity |].
  destruct (check_connection_restores Run.up (Demo.fresh Demo.full_config) eq_refl)
    as [_ H].
  apply (H Run.dsn 7%nat None None); vm_compute; reflexivity.
Defined.


Lemma native_query_acknowledges_witness :
  cur_result_set_produced Run.up 8%nat (Some "INSERT INTO T VALUES (1)") = false
  /\ fst (native_query Run.up Demo.externals "insert into t values (1)"
            (Demo.fresh Demo.full_config))
     = inr (mkResponse OK None None).
Proof.
  split; [reflexivity |].
  refine (proj2 (proj2 (native_query_acknowledges Run.up Demo.externals
            "insert into t values (1)"
            (Demo.fresh Demo.full_config) Run.opened 7%nat 8%nat None
            (Some "INSERT INTO T VALUES (1)") _ _ _ _)) _ _ _ _ _).
  - vm_compute; reflexivity.
  - reflexivity.
  - reflexivity.
  - reflexivity.
  - reflexivity.
  - reflexivity.
  - right. exists (Some "INSERT INTO T VALUES (1)"). reflexivity.
Defined.


Lemma native_query_restores_witness :
  is_connected (self (snd (native_query Run.up Demo.externals "select id, name from t"
                             (Demo.fresh Demo.full_config)))) = false
  /\ is_connected (self (snd (native_query Run.up Demo.externals "drop t"
                                Run.opened))) = true.
Proof.
  split.
  - apply (native_query_restores Run.up Demo.externals "select id, name from t"
             (Demo.fresh Demo.full_config) _
             (mkResponse TABLE
                (Some (mkDataFrame [[VInt 1; VStr "ann"]; [VInt 2; VStr "bob"]]
                                   ["ID"; "NAME"]))
                None)).
    vm_compute; reflexivity.
  - apply (native_query_restores Run.up Demo.externals "drop t" Run.opened _
             (mkResponse ERROR None (Some "SQL0104N  An unexpected token was found."))).
    vm_compute; reflexivity.
Defined.


Lemma query_delegates_witness :
  query Run.up Demo.externals "insert into t values (1)" Run.opened
  = native_query Run.up Demo.externals "insert into t values (1)" Run.opened.
Proof.
  exact (proj1 (query_delegates Run.up Demo.externals "insert into t values (1)"
                  Run.opened) _ eq_refl).
Defined.

(** * More of the handler *)

Section More.

Context {World Conn Cursor ASTNode : Type}.
Variable drv : Driver World Conn Cursor.
Variable ext : Externals ASTNode.
Variable cat : Metadata World Conn.

Abbreviation Machine := (Machine World Conn Cursor).
Abbreviation Event := (Event Conn Cursor).
Abbreviation Comp := (@M World Conn Cursor).

Ltac run_all :=
  unfold native_query, check_connection, get_tables, get_columns, __del__,
    pd_DataFrame_records, pd_DataFrame, metadata_call, bind, try_except,
    try_finally, when, get_self, call, peek, logger_error, deref, ret, raise in *;
  cbn in *.

Ltac run_connect :=
  unfold connect, bind, try_except, get_self, set_connection, set_is_connected,
    call, logger_error, ret, raise in *;
  cbn [fst snd self world trace connection is_connected connection_data] in *.

Ltac run_close Hflag Hconn :=
  unfold disconnect, bind, get_self, deref, call, set_is_connected, ret, raise;
  cbn; rewrite ?Hflag, ?Hconn; cbn.

Ltac split_on H :=
  match type of H with
  | context [match ?x with _ => _ end] =>
      lazymatch x with
      | context [match _ with _ => _ end] => fail
      | _ => destruct x eqn:?
      end
  end; cbn in H; try discriminate H.

Ltac split_here :=
  match goal with
  | |- context [match ?x with _ => _ end] =>
      lazymatch x with
      | context [match _ with _ => _ end] => fail
      | _ => destruct x eqn:?
      end
  end; cbn.


(** ** connect *)

Lemma connect_refuses (m : Machine) (k : string) :
  is_connected (self m) = false ->
  In k required_keys ->
  connection_data (self m) !! k = None ->
  connect drv m = (inl missing_parameters, m).
Proof.
  intros Hd Hin Hk. run_connect.
  rewrite Hd, (missing_key_check _ k Hin Hk). reflexivity.
Qed.

(** X1.  While the handler is connected, [connect] gives back the
    connection it holds and calls nothing: a [connect] after one that gave a
    connection gives the same one and leaves the machine, trace included, as
    it is. *)
Theorem connect_twice (m m1 : Machine) (c : Conn) :
  connect drv m = (inr (Some c), m1) ->
  connect drv m1 = (inr (Some c), m1).
Proof.
  intros H. apply connect_spec in H as (_ & _ & Hflag & Hconn).
  rewrite (connect_connected drv m1 Hflag), Hconn. reflexivity.
Qed.


(** X3.  When the driver's [pconnect] raises, [connect] logs the message
    and returns [None]: the handler's attributes are as before, and
    [pconnect] was called once, with the connection string. *)
Theorem connect_driver_failure (m : Machine) (cs : string) (e : Exn) (w : World) :
  is_connected (self m) = false ->
  connection_string (connection_data (self m)) = Some cs ->
  pconnect drv cs (world m) = (inl e, w) ->
  exists m',
    connect drv m = (inr None, m')
    /\ self m' = self m /\ world m' = w
    /\ trace m' = trace m ++
         [EvPconnect cs;
          EvLogError ("Error while connecting to "
                      +:+ format (dict_get (connection_data (self m)) "database")
                      +:+ ", " +:+ exn_str e)].
Proof.
  intros Hd Hcs Hp. rewrite (connect_swallows drv m cs e w Hd Hcs Hp).
  eexists. repeat split.
Qed.

(** X4.  The connection string depends on host, user, password, database,
    port and schema only: any other entry of [connection_data] is ignored. *)
Theorem connection_string_reads_six_keys (d d' : gmap string value) :
  (forall k, In k connection_keys -> d !! k = d' !! k) ->
  connection_string d = connection_string d'.
Proof.
  intros H. unfold connection_string.
  rewrite (H "database"), (H "host"), (H "user"), (H "password"),
    (H "port"), (H "schema") by (cbn; tauto).
  reflexivity.
Qed.

(** ** native_query: the ways it ends without a response *)

Ltac shape :=
  rewrite <- ?app_assoc; cbn;
  eexists; eexists; split; [reflexivity |];
  split; [reflexivity |]; first [reflexivity | auto].

(** X5.  With a required parameter missing on a handler that is not
    connected, [native_query] does not return an error response: the
    [ValueError] of [connect] leaves it, and the machine is unchanged. *)
Theorem native_query_missing_key (q : string) (m : Machine) (k : string) :
  is_connected (self m) = false ->
  In k required_keys ->
  connection_data (self m) !! k = None ->
  native_query drv ext q m = (inl missing_parameters, m).
Proof.
  intros Hd Hin Hk.
  pose proof (connect_refuses m k Hd Hin Hk) as Hc.
  run_all. rewrite Hc. reflexivity.
Qed.

(** X6.  When the driver's [pconnect] raises, [native_query] raises an
    [AttributeError]: [connect] has returned [None], and the cursor is asked
    of it.  No cursor is opened and nothing is executed. *)
Theorem native_query_driver_down (q : string) (m : Machine) (cs : string) (e : Exn) (w : World) :
  is_connected (self m) = false ->
  connection_string (connection_data (self m)) = Some cs ->
  pconnect drv cs (world m) = (inl e, w) ->
  exists m',
    native_query drv ext q m
    = (inl (AttributeError "'NoneType' object has no attribute 'cursor'"), m')
    /\ self m' = self m
    /\ driver_calls (trace m') = driver_calls (trace m) ++ [EvPconnect cs].
Proof.
  intros Hd Hcs Hp. run_all.
  rewrite (connect_swallows drv m cs e w Hd Hcs Hp). cbn.
  eexists. split; [reflexivity |]. split; [reflexivity |].
  cbn. unfold driver_calls. rewrite filter_app. reflexivity.
Qed.

(** X7.  When the driver refuses the cursor, its exception leaves
    [native_query], and a connection opened for the call is not closed: the
    handler stays connected. *)
Theorem native_query_cursor_error
    (q : string) (m : Machine) (cs : string) (c : Conn) (w1 w2 : World) (e : Exn) :
  is_connected (self m) = false ->
  connection_string (connection_data (self m)) = Some cs ->
  pconnect drv cs (world m) = (inr c, w1) ->
  conn_cursor drv c w1 = (inl e, w2) ->
  exists m',
    native_query drv ext q m = (inl e, m')
    /\ is_connected (self m') = true
    /\ connection (self m') = Some c
    /\ trace m' = trace m ++ [EvPconnect cs; EvCursor c].
Proof.
  intros Hd Hcs Hp Hcur. run_all.
  rewrite (connect_opens drv m cs c w1 Hd Hcs Hp). cbn. rewrite Hcur. cbn.
  eexists. repeat split. cbn. rewrite <- app_assoc. reflexivity.
Qed.

(** X8.  The handler has its connection and the cursor, the statement is
    refused with [e], and the driver's [rollback] raises [e'] while the
    cursor's exit returns.  Then [e'] leaves [native_query]: there is no
    response, the cursor has been left, and [close] is not called, so that a
    connection opened for the call stays open. *)
Theorem native_query_rollback_failure
    (q : string) (m m1 : Machine) (c : Conn) (cur : Cursor)
    (w2 w3 w4 w5 : World) (e e' : Exn) :
  connect drv m = (inr (Some c), m1) ->
  conn_cursor drv c (world m1) = (inr cur, w2) ->
  cur_execute drv cur (Text.upper q) w2 = (inl e, w3) ->
  conn_rollback drv c w3 = (inl e', w4) ->
  cur_exit drv cur w4 = (inr tt, w5) ->
  exists m' new,
    native_query drv ext q m = (inl e', m')
    /\ is_connected (self m') = true
    /\ trace m' = trace m1 ++ new
    /\ driver_calls new
       = [EvCursor c; EvExecute cur (Text.upper q); EvRollback c; EvCursorExit cur].
Proof.
  intros Hc Hcur Hex Hrb Hexit.
  pose proof (connect_spec _ _ _ _ Hc) as (Hdata & Hsame & Hflag & Hconn).
  run_all. rewrite Hc. cbn. rewrite Hcur. cbn. rewrite Hex. cbn.
  rewrite Hconn. cbn. rewrite Hrb. cbn. rewrite Hexit. cbn.
  eexists. eexists. split; [reflexivity |]. split; [exact Hflag |].
  cbn. rewrite <- !app_assoc. split; reflexivity.
Qed.

(** ** native_query: errors after the execution *)

(** The [except] branch from the call of [rollback] on: the calls made, the
    response, and when it is returned. *)
Ltac error_path c cur w Hflag Hconn m :=
  let w5 := fresh "w" in
  let w6 := fresh "w" in
  split; [| split];
  [ destruct (conn_rollback drv c w) as [[? | []] w5]; cbn;
    destruct (cur_exit drv cur w5) as [[? | []] w6]; cbn;
    try (destruct (is_connected (self m)); cbn;
         [| run_close Hflag Hconn;
            destruct (conn_close drv c w6) as [[? | []] ?]; cbn ]);
    shape
  | intros ?;
    destruct (conn_rollback drv c w) as [[? | []] w5]; cbn;
    destruct (cur_exit drv cur w5) as [[? | []] w6]; cbn;
    try discriminate;
    (destruct (is_connected (self m)); cbn;
     [| destruct (disconnect drv _) as [[? | []] ?] ]);
    cbn; intros H; inversion H; reflexivity
  | let Hr := fresh "Hr" in
    let Hx := fresh "Hx" in
    let Hclose := fresh "Hclose" in
    intros ? ? Hr Hx Hclose; rewrite Hr; cbn; rewrite Hx; cbn;
    destruct (is_connected (self m)); cbn; [reflexivity |];
    destruct Hclose as [Hclose | [? Hclose]]; [discriminate |];
    run_close Hflag Hconn; rewrite Hclose; reflexivity ].

(** X9.  [commit] is inside the [try]: when the statement runs and
    [commit] raises [e], the handler logs, calls [rollback] after the failed
    [commit], and the response, when one is returned, is the error response
    with [str(e)]. *)
Theorem native_query_commit_failure
    (q : string) (m m1 : Machine) (c : Conn) (cur : Cursor)
    (w2 w3 w4 : World) (e : Exn) :
  connect drv m = (inr (Some c), m1) ->
  conn_cursor drv c (world m1) = (inr cur, w2) ->
  cur_execute drv cur (Text.upper q) w2 = (inr tt, w3) ->
  cur_result_set_produced drv cur w3 = false ->
  conn_commit drv c w3 = (inl e, w4) ->
  let failed := mkResponse ERROR None (Some (exn_str e)) in
  (exists new rest,
      trace (snd (native_query drv ext q m)) = trace m1 ++ new
      /\ driver_calls new =
           [EvCursor c; EvExecute cur (Text.upper q); EvCommit c; EvRollback c;
            EvCursorExit cur] ++ rest
      /\ (rest = [] \/ rest = [EvClose c]))
  /\ (forall r, fst (native_query drv ext q m) = inr r -> r = failed)
  /\ (forall w5 w6,
         conn_rollback drv c w4 = (inr tt, w5) ->
         cur_exit drv cur w5 = (inr tt, w6) ->
         (is_connected (self m) = true \/ exists w7, conn_close drv c w6 = (inr tt, w7)) ->
         fst (native_query drv ext q m) = inr failed).
Proof.
  intros Hc Hcur Hex Hnone Hcm failed.
  pose proof (connect_spec _ _ _ _ Hc) as (Hdata & Hsame & Hflag & Hconn).
  run_all. rewrite Hc. cbn. rewrite Hcur. cbn. rewrite Hex. cbn.
  rewrite Hnone. cbn. rewrite Hconn. cbn. rewrite Hcm. cbn. rewrite Hconn. cbn.
  error_path c cur w4 Hflag Hconn m.
Qed.

(** X10.  When the rows are fetched and pandas refuses the frame with
    [e], or when [fetchall] itself raises [e], nothing is committed:
    [rollback] is called, and the response, when one is returned, is the
    error response with [str(e)]. *)
Theorem native_query_result_failure
    (q : string) (m m1 : Machine) (c : Conn) (cur : Cursor)
    (w2 w3 w4 : World) (e : Exn) :
  connect drv m = (inr (Some c), m1) ->
  conn_cursor drv c (world m1) = (inr cur, w2) ->
  cur_execute drv cur (Text.upper q) w2 = (inr tt, w3) ->
  cur_result_set_produced drv cur w3 = true ->
  (cur_fetchall drv cur w3 = (inl e, w4)
   \/ exists rows, cur_fetchall drv cur w3 = (inr rows, w4)
                   /\ frame_error ext rows (map fst (cur_description drv cur w4)) = Some e) ->
  let failed := mkResponse ERROR None (Some (exn_str e)) in
  (exists new rest,
      trace (snd (native_query drv ext q m)) = trace m1 ++ new
      /\ driver_calls new =
           [EvCursor c; EvExecute cur (Text.upper q); EvFetchall cur; EvRollback c;
            EvCursorExit cur] ++ rest
      /\ (rest = [] \/ rest = [EvClose c]))
  /\ (forall r, fst (native_query drv ext q m) = inr r -> r = failed)
  /\ (forall w5 w6,
         conn_rollback drv c w4 = (inr tt, w5) ->
         cur_exit drv cur w5 = (inr tt, w6) ->
         (is_connected (self m) = true \/ exists w7, conn_close drv c w6 = (inr tt, w7)) ->
         fst (native_query drv ext q m) = inr failed).
Proof.
  intros Hc Hcur Hex Hset Hres failed.
  pose proof (connect_spec _ _ _ _ Hc) as (Hdata & Hsame & Hflag & Hconn).
  run_all. rewrite Hc. cbn. rewrite Hcur. cbn. rewrite Hex. cbn.
  rewrite Hset. cbn.
  destruct Hres as [Hf | (rows & Hf & Hfr)]; rewrite Hf; cbn;
    [| rewrite Hfr; cbn]; rewrite Hconn; cbn;
    error_path c cur w4 Hflag Hconn m.
Qed.

(** X11.  Once the cursor is open, [native_query] leaves it exactly once,
    however the statement, the fetch, the commit or the rollback end: the
    [with] block. *)
Theorem native_query_leaves_cursor
    (q : string) (m m1 : Machine) (c : Conn) (cur : Cursor) (w2 : World) :
  connect drv m = (inr (Some c), m1) ->
  conn_cursor drv c (world m1) = (inr cur, w2) ->
  exists new,
    trace (snd (native_query drv ext q m)) = trace m1 ++ new
    /\ filter is_cursor_exit new = [EvCursorExit cur].
Proof.
  intros Hc Hcur.
  pose proof (connect_spec _ _ _ _ Hc) as (Hdata & Hsame & Hflag & Hconn).
  run_all.
  unfold disconnect, bind, get_self, deref, call, set_is_connected, ret, raise.
  rewrite Hc. cbn. rewrite Hcur. cbn.
  repeat (rewrite ?Hconn, ?Hflag; cbn; split_here).
  all: rewrite ?Hconn, ?Hflag; cbn; rewrite <- ?app_assoc; cbn.
  all: eexists; split; reflexivity.
Qed.

(** X12.  A statement with a result set that goes through: the driver is
    asked for the cursor, runs the statement, fetches, commits, and the
    cursor is left, in this order; then the connection is closed if, and
    only if, the handler was not connected before.  [rollback] is not
    called. *)
Theorem native_query_calls_on_success
    (q : string) (m m1 : Machine) (c : Conn) (cur : Cursor)
    (w2 w3 w4 w5 w6 : World) (rows : list Row) :
  connect drv m = (inr (Some c), m1) ->
  conn_cursor drv c (world m1) = (inr cur, w2) ->
  cur_execute drv cur (Text.upper q) w2 = (inr tt, w3) ->
  cur_result_set_produced drv cur w3 = true ->
  cur_fetchall drv cur w3 = (inr rows, w4) ->
  frame_error ext rows (map fst (cur_description drv cur w4)) = None ->
  conn_commit drv c w4 = (inr tt, w5) ->
  cur_exit drv cur w5 = (inr tt, w6) ->
  trace (snd (native_query drv ext q m))
  = trace m1
    ++ [EvCursor c; EvExecute cur (Text.upper q); EvFetchall cur; EvCommit c;
        EvCursorExit cur]
    ++ (if is_connected (self m) then [] else [EvClose c]).
Proof.
  intros Hc Hcur Hex Hset Hrows Hframe Hcm Hexit.
  pose proof (connect_spec _ _ _ _ Hc) as (Hdata & Hsame & Hflag & Hconn).
  run_all. rewrite Hc. cbn. rewrite Hcur. cbn. rewrite Hex. cbn.
  rewrite Hset. cbn. rewrite Hrows. cbn. rewrite Hframe. cbn.
  rewrite Hconn. cbn. rewrite Hcm. cbn. rewrite Hexit. cbn.
  destruct (is_connected (self m)); cbn.
  - rewrite <- !app_assoc. reflexivity.
  - run_close Hflag Hconn.
    destruct (conn_close drv c w6) as [[ec | []] w7]; cbn;
      rewrite <- !app_assoc; reflexivity.
Qed.

(** ** check_connection: the other ways it goes *)

(** X13.  With a required parameter missing, [check_connection] on a
    handler that is not connected does not raise: it returns the failure
    status with the message of the [ValueError], the driver is not called,
    and the handler is as before. *)
Theorem check_connection_missing_key (m : Machine) (k : string) :
  is_connected (self m) = false ->
  In k required_keys ->
  connection_data (self m) !! k = None ->
  exists m',
    check_connection drv m
    = (inr (mkStatus false (Some (exn_str missing_parameters))), m')
    /\ self m' = self m /\ world m' = world m
    /\ driver_calls (trace m') = driver_calls (trace m).
Proof.
  intros Hd Hin Hk.
  pose proof (connect_refuses m k Hd Hin Hk) as Hc.
  run_all. rewrite Hc. cbn. unfold set_is_connected. eexists. rewrite Hd. cbn.
  split; [reflexivity |]. repeat split.
  cbn. unfold driver_calls. rewrite filter_app. cbn. apply app_nil_r.
Qed.

(** X14.  On a connected handler [check_connection] answers success
    without a call: the machine, trace included, is unchanged, and the
    connection stays open. *)
Theorem check_connection_connected (m : Machine) :
  is_connected (self m) = true ->
  check_connection drv m = (inr (mkStatus true None), m).
Proof.
  intros Hc. run_all. rewrite (connect_connected drv m Hc). cbn.
  rewrite Hc. cbn. unfold set_is_connected. rewrite ?Hc. reflexivity.
Qed.


(** ** What the methods leave alone *)

Section Frame.

Context {X : Type} (f : Machine -> X).

Lemma keeps_bind {A B} (c : Comp A) (k : A -> Comp B) :
  keeps f c -> (forall a, keeps f (k a)) -> keeps f (bind c k).
Proof.
  intros Hc Hk m r m' H. unfold bind in H.
  destruct (c m) as [[e | a] m1] eqn:E.
  - inversion H; subst. eapply Hc, E.
  - rewrite (Hk a _ _ _ H). eapply Hc, E.
Qed.

Lemma keeps_try_except {A} (body : Comp A) (handler : Exn -> Comp A) :
  keeps f body -> (forall e, keeps f (handler e)) ->
  keeps f (try_except body handler).
Proof.
  intros Hb Hh m r m' H. unfold try_except in H.
  destruct (body m) as [[e | a] m1] eqn:E.
  - rewrite (Hh e _ _ _ H). eapply Hb, E.
  - inversion H; subst. eapply Hb, E.
Qed.

Lemma keeps_try_finally {A} (body : Comp A) (fin : Exn + A -> Comp unit) :
  keeps f body -> (forall r, keeps f (fin r)) ->
  keeps f (try_finally body fin).
Proof.
  intros Hb Hf m r m' H. unfold try_finally in H.
  destruct (body m) as [r1 m1] eqn:E.
  destruct (fin r1 m1) as [[e | u] m2] eqn:E2; inversion H; subst;
    rewrite (Hf _ _ _ _ E2); eapply Hb, E.
Qed.

Lemma keeps_when (b : bool) (c : Comp unit) :
  keeps f c -> keeps f (when b c).
Proof.
  intros Hc. destruct b; [exact Hc |].
  intros m r m' H. inversion H; reflexivity.
Qed.

Lemma keeps_for_each {A B} (g : A -> Comp B) (l : list A) :
  (forall a, keeps f (g a)) -> keeps f (for_each g l).
Proof.
  intros Hg. induction l as [| a l IH]; cbn.
  - intros m r m' H. inversion H; reflexivity.
  - apply keeps_bind; [apply Hg |]. intros b.
    apply keeps_bind; [exact IH |]. intros bs m r m' H.
    inversion H; reflexivity.
Qed.

End Frame.

(** Composite computations are taken apart; what is left reads or writes the
    world and the trace only. *)
Ltac frame :=
  unfold preserves in *;
  repeat first
    [ eassumption
    | apply keeps_bind; [| intros ?]
    | apply keeps_try_except; [| intros ?]
    | apply keeps_try_finally; [| intros ?]
    | apply keeps_when
    | apply keeps_for_each; intros ?
    | match goal with
      | |- keeps _ (if ?b then _ else _) => destruct b
      | |- keeps _ (match ?x with _ => _ end) => destruct x
      end
    | progress unfold deref, subscript, table_record, pd_DataFrame_records,
        pd_DataFrame
    | solve [ let H := fresh "H" in
              intros ? ? ? H;
              unfold ret, raise, get_self, call, peek, metadata_call, logger_error,
                set_is_connected, set_connection in H;
              cbn in H; repeat split_on H; inversion H; reflexivity ] ].

Lemma connect_keeps_data : preserves connection_data (connect drv).
Proof.
  intros m r m' H. apply connect_spec in H as (H & _). exact H.
Qed.

Lemma disconnect_keeps_data : preserves connection_data (disconnect drv).
Proof.
  unfold disconnect. frame.
Qed.

Lemma disconnect_keeps_handle : preserves connection (disconnect drv).
Proof.
  unfold disconnect. frame.
Qed.

(** X16.  No method writes [connection_data]: whatever the driver does
    and however the call ends, the configuration after [connect],
    [disconnect], [__del__], [check_connection], [native_query], [query],
    [get_tables] and [get_columns] is the one before. *)
Theorem connection_data_kept (q : string) (ast : ASTNode) (table_name : value) :
  preserves connection_data (connect drv)
  /\ preserves connection_data (disconnect drv)
  /\ preserves connection_data (__del__ drv)
  /\ preserves connection_data (check_connection drv)
  /\ preserves connection_data (native_query drv ext q)
  /\ preserves connection_data (query drv ext ast)
  /\ preserves connection_data (get_tables drv ext cat)
  /\ preserves connection_data (get_columns drv ext cat table_name).
Proof.
  pose proof connect_keeps_data as Hc.
  pose proof disconnect_keeps_data as Hd.
  assert (Hq : forall s, preserves connection_data (native_query drv ext s)).
  { intros s. unfold native_query. frame. }
  repeat split; try assumption.
  - unfold __del__. frame.
  - unfold check_connection. frame.
  - apply Hq.
  - unfold query, preserves. apply keeps_bind; [| exact Hq].
    intros m r m' H. inversion H; reflexivity.
  - unfold get_tables. frame.
  - unfold get_columns. frame.
Qed.

(** ** disconnect, then again *)

(** X17.  [disconnect] keeps the handle of the connection it has closed,
    and a [connect] after it does not reuse that handle: it asks the driver
    for a new connection and puts it in its place. *)
Theorem disconnect_then_connect
    (m : Machine) (c c2 : Conn) (cs : string) (w1 w2 : World) :
  is_connected (self m) = true ->
  connection (self m) = Some c ->
  conn_close drv c (world m) = (inr tt, w1) ->
  connection_string (connection_data (self m)) = Some cs ->
  pconnect drv cs w1 = (inr c2, w2) ->
  exists m1 m2,
    disconnect drv m = (inr tt, m1)
    /\ connection (self m1) = Some c /\ is_connected (self m1) = false
    /\ connect drv m1 = (inr (Some c2), m2)
    /\ connection (self m2) = Some c2 /\ is_connected (self m2) = true
    /\ trace m2 = trace m ++ [EvClose c; EvPconnect cs].
Proof.
  intros Hc Hconn Hclose Hcs Hp.
  eexists. eexists.
  split; [apply disconnect_closes; eassumption |].
  split; [reflexivity |]. split; [reflexivity |].
  split; [apply connect_opens; [reflexivity | exact Hcs | exact Hp] |].
  split; [reflexivity |]. split; [reflexivity |].
  cbn. rewrite <- app_assoc. reflexivity.
Qed.

(** X18.  [__del__] is [disconnect]: its own test of [is_connected] adds
    nothing, since [disconnect] on a handler that is not connected returns at
    once. *)
Theorem del_is_disconnect (m : Machine) :
  __del__ drv m = disconnect drv m.
Proof.
  unfold __del__, bind, get_self, when. cbn.
  destruct (is_connected (self m)) eqn:Hc; [reflexivity |].
  rewrite disconnect_noop by exact Hc. reflexivity.
Qed.

(** ** get_tables and get_columns *)

Lemma subscript_some (d : gmap string value) (key : string) (v : value) (m : Machine) :
  d !! key = Some v -> subscript d key m = (inr v, m).
Proof.
  intros H. unfold subscript. rewrite H. reflexivity.
Qed.

Lemma for_each_subscript (key : string) (l : list (gmap string value)) (m : Machine) :
  Forall (fun d => has_key d key = true) l ->
  for_each (fun d => subscript d key) l m = (inr (map (fun d => dict_get d key) l), m).
Proof.
  induction 1 as [| d l Hd _ IH]; cbn; [reflexivity |].
  apply has_key_lookup in Hd as [v Hv].
  unfold bind at 1. rewrite (subscript_some _ _ _ _ Hv).
  unfold bind at 1. rewrite IH. cbn. unfold dict_get. rewrite Hv. reflexivity.
Qed.

Lemma for_each_table_record (l : list (gmap string value)) (m : Machine) :
  Forall (fun d => forallb (has_key d) table_keys = true) l ->
  exists records,
    for_each table_record l m = (inr records, m)
    /\ map (map snd) records = map table_row l
    /\ match records with
       | [] => l = []
       | r :: _ => map fst r = ["TABLE_NAME"; "TABLE_SCHEMA"; "TABLE_TYPE"]
       end.
Proof.
  induction 1 as [| d l Hd _ (records & IH & Hrows & _)]; cbn.
  - exists []. repeat split.
  - cbn in Hd. rewrite !andb_true_iff in Hd.
    destruct Hd as (H1 & H2 & H3 & _).
    apply has_key_lookup in H1 as [v1 E1], H2 as [v2 E2], H3 as [v3 E3].
    unfold bind at 1, table_record at 1.
    unfold bind at 1. rewrite (subscript_some _ _ _ _ E1).
    unfold bind at 1. rewrite (subscript_some _ _ _ _ E2).
    unfold bind at 1. rewrite (subscript_some _ _ _ _ E3).
    unfold ret at 1. unfold bind at 1.
    rewrite IH. cbn. eexists. split; [reflexivity |]. cbn.
    unfold table_row at 1, dict_get. rewrite E1, E2, E3, Hrows. repeat split.
Qed.

(** X19.  [get_columns] on a table name that is empty, or is not a
    string, raises its [ValueError] before anything else: the machine is
    unchanged, so the handler has not connected and the driver has not been
    called. *)
Theorem get_columns_invalid_name (table_name : value) (m : Machine) :
  truthy table_name = false \/ is_str table_name = false ->
  get_columns drv ext cat table_name m = (inl invalid_table_name, m).
Proof.
  intros [H | H]; unfold get_columns; rewrite H; cbn;
    rewrite ?orb_true_r; reflexivity.
Qed.

(** X20.  [get_columns] with a connection: the response is a TABLE with
    the single column COLUMN_NAME and one row per entry of the driver's
    list, in order, holding that entry's COLUMN_NAME; for a table without
    columns it is the frame with that column and no row.  The connection is
    the handler's own after [connect], and the trace is that of [connect]. *)
Theorem get_columns_result
    (table_name : string) (m m1 : Machine) (oc : option Conn) (c : Conn)
    (result : list (gmap string value)) (w : World) :
  table_name <> "" ->
  connect drv m = (inr oc, m1) ->
  connection (self m1) = Some c ->
  conn_columns cat c (VStr table_name) (world m1) = (inr result, w) ->
  Forall (fun d => has_key d "COLUMN_NAME" = true) result ->
  let rows := map (fun d => [dict_get d "COLUMN_NAME"]) result in
  frame_error ext rows ["COLUMN_NAME"] = None ->
  get_columns drv ext cat (VStr table_name) m
  = (inr (mkResponse TABLE (Some (mkDataFrame rows ["COLUMN_NAME"])) None),
     {| self := self m1; world := w; trace := trace m1 |})
  /\ length rows = length result.
Proof.
  intros Hname Hc Hconn Hcols Hkeys rows Hframe.
  split; [| unfold rows; apply length_map].
  unfold get_columns. cbn.
  destruct (String.eqb_spec table_name "") as [E | _]; [contradiction |]. cbn.
  unfold bind at 1. rewrite Hc.
  unfold bind at 1, get_self. cbn.
  unfold bind at 1, deref. rewrite Hconn. cbn.
  unfold bind at 1, metadata_call. rewrite Hcols. cbn.
  unfold bind at 1. rewrite (for_each_subscript _ _ _ Hkeys). cbn.
  unfold bind, pd_DataFrame, ret.
  rewrite map_map. fold rows. rewrite Hframe. reflexivity.
Qed.

(** X21.  [get_tables] with a connection: the driver is asked for the
    tables of the connection's current schema, and the response is a TABLE
    with one row per entry of its list, in order, made of the entry's
    TABLE_NAME, TABLE_SCHEM and TABLE_TYPE under the columns TABLE_NAME,
    TABLE_SCHEMA and TABLE_TYPE; for an empty list the frame has no column
    at all. *)
Theorem get_tables_result
    (m m1 : Machine) (oc : option Conn) (c : Conn) (schema : value)
    (result : list (gmap string value)) (w1 w2 : World) :
  connect drv m = (inr oc, m1) ->
  connection (self m1) = Some c ->
  conn_current_schema cat c (world m1) = (inr schema, w1) ->
  conn_tables cat c schema w1 = (inr result, w2) ->
  Forall (fun d => forallb (has_key d) table_keys = true) result ->
  let rows := map table_row result in
  let columns := match result with
                 | [] => []
                 | _ :: _ => ["TABLE_NAME"; "TABLE_SCHEMA"; "TABLE_TYPE"]
                 end in
  frame_error ext rows columns = None ->
  get_tables drv ext cat m
  = (inr (mkResponse TABLE (Some (mkDataFrame rows columns)) None),
     {| self := self m1; world := w2; trace := trace m1 |})
  /\ length rows = length result.
Proof.
  intros Hc Hconn Hschema Htables Hkeys rows columns Hframe.
  split; [| unfold rows; apply length_map].
  unfold get_tables.
  unfold bind at 1. rewrite Hc.
  unfold bind at 1, get_self. cbn.
  unfold bind at 1, deref. rewrite Hconn. cbn.
  unfold bind at 1. cbn.
  unfold bind at 1, metadata_call. rewrite Hschema. cbn.
  unfold bind at 1. rewrite Htables. cbn.
  destruct (for_each_table_record result
              {| self := self m1; world := w2; trace := trace m1 |} Hkeys)
    as (records & Hrec & Hrows & Hcols).
  unfold bind at 1. rewrite Hrec.
  unfold bind, pd_DataFrame_records, pd_DataFrame, ret.
  rewrite Hrows. fold rows.
  assert (Hcolumns : match records with [] => [] | r :: _ => map fst r end = columns).
  { unfold columns. destruct records as [| r records]; [rewrite Hcols; reflexivity |].
    rewrite Hcols. destruct result; [discriminate Hrows | reflexivity]. }
  rewrite Hcolumns, Hframe. reflexivity.
Qed.

(** X22.  [get_tables] and [get_columns] do not give the connection back:
    on a handler that was not connected they open one and, however they end
    after that, the handler is left connected, with no call recorded after
    [pconnect], so no [close]. *)
Theorem metadata_leaves_connection_open
    (table_name : string) (m : Machine) (cs : string) (c : Conn) (w : World) :
  table_name <> "" ->
  is_connected (self m) = false ->
  connection_string (connection_data (self m)) = Some cs ->
  pconnect drv cs (world m) = (inr c, w) ->
  forall r m',
    get_tables drv ext cat m = (r, m')
    \/ get_columns drv ext cat (VStr table_name) m = (r, m') ->
    is_connected (self m') = true
    /\ connection (self m') = Some c
    /\ trace m' = trace m ++ [EvPconnect cs].
Proof.
  intros Hname Hd Hcs Hp r m' H.
  pose proof (connect_opens drv m cs c w Hd Hcs Hp) as Hc.
  assert (K : (self m', trace m')
              = ({| connection_data := connection_data (self m);
                    connection := Some c; is_connected := true |},
                 trace m ++ [EvPconnect cs])).
  { destruct H as [H | H].
    - unfold get_tables, bind at 1 in H. rewrite Hc in H. cbv beta iota in H.
      match type of H with
      | ?k _ = _ =>
          assert (K : keeps (fun m0 : Machine => (self m0, trace m0)) k) by frame
      end.
      exact (K _ _ _ H).
    - unfold get_columns in H. cbn in H.
      destruct (String.eqb_spec table_name "") as [E | _]; [contradiction |].
      cbn in H. unfold bind at 1 in H. rewrite Hc in H. cbv beta iota in H.
      match type of H with
      | ?k _ = _ =>
          assert (K : keeps (fun m0 : Machine => (self m0, trace m0)) k) by frame
      end.
      exact (K _ _ _ H). }
  inversion K as [[Hself Htrace]]. rewrite Hself. repeat split.
Qed.

(** X23.  When the driver's [pconnect] raises on a handler that never had
    a connection, [get_tables] and [get_columns] raise an [AttributeError]:
    [connect] has dropped the driver's exception, and the method is asked of
    [None]. *)
Theorem metadata_without_connection
    (table_name : string) (m : Machine) (cs : string) (e : Exn) (w : World) :
  table_name <> "" ->
  is_connected (self m) = false ->
  connection (self m) = None ->
  connection_string (connection_data (self m)) = Some cs ->
  pconnect drv cs (world m) = (inl e, w) ->
  fst (get_tables drv ext cat m)
  = inl (AttributeError "'NoneType' object has no attribute 'tables'")
  /\ fst (get_columns drv ext cat (VStr table_name) m)
     = inl (AttributeError "'NoneType' object has no attribute 'columns'").
Proof.
  intros Hname Hd Hnone Hcs Hp.
  pose proof (connect_swallows drv m cs e w Hd Hcs Hp) as Hc.
  split.
  - unfold get_tables, bind at 1. rewrite Hc.
    unfold bind, get_self, deref. cbn. rewrite Hnone. reflexivity.
  - unfold get_columns. cbn.
    destruct (String.eqb_spec table_name "") as [E | _]; [contradiction |]. cbn.
    unfold bind at 1. rewrite Hc.
    unfold bind, get_self, deref. cbn. rewrite Hnone. reflexivity.
Qed.

Lemma table_record_cases (d : gmap string value) (m : Machine) :
  (exists rec, table_record d m = (inr rec, m)
               /\ forallb (has_key d) table_keys = true)
  \/ (exists k, table_record d m = (inl (KeyError k), m)
                /\ In k table_keys /\ d !! k = None).
Proof.
  unfold table_record, table_keys. cbn.
  destruct (d !! "TABLE_NAME") as [v1 |] eqn:E1.
  2: { right. exists "TABLE_NAME". unfold bind at 1, subscript at 1. rewrite E1.
       repeat split; cbn; tauto. }
  destruct (d !! "TABLE_SCHEM") as [v2 |] eqn:E2.
  2: { right. exists "TABLE_SCHEM".
       unfold bind at 1. rewrite (subscript_some _ _ _ _ E1).
       unfold bind at 1, subscript at 1. rewrite E2. repeat split; cbn; tauto. }
  destruct (d !! "TABLE_TYPE") as [v3 |] eqn:E3.
  2: { right. exists "TABLE_TYPE".
       unfold bind at 1. rewrite (subscript_some _ _ _ _ E1).
       unfold bind at 1. rewrite (subscript_some _ _ _ _ E2).
       unfold bind at 1, subscript at 1. rewrite E3. repeat split; cbn; tauto. }
  left. eexists.
  unfold bind at 1. rewrite (subscript_some _ _ _ _ E1).
  unfold bind at 1. rewrite (subscript_some _ _ _ _ E2).
  unfold bind at 1. rewrite (subscript_some _ _ _ _ E3).
  split; [reflexivity |].
  rewrite !andb_true_iff, !has_key_lookup. eauto 10.
Qed.

Lemma for_each_table_record_fails
    (l : list (gmap string value)) (d : gmap string value) (k : string) (m : Machine) :
  In d l -> In k table_keys -> d !! k = None ->
  exists k', for_each table_record l m = (inl (KeyError k'), m) /\ In k' table_keys.
Proof.
  intros Hin Hk Hnone. induction l as [| a l IH]; [contradiction |].
  cbn [for_each]. unfold bind at 1.
  destruct (table_record_cases a m) as [(rec & Hrec & Hall) | (k' & Hfail & Hk' & _)].
  - rewrite Hrec. destruct Hin as [-> | Hin].
    + rewrite forallb_forall in Hall. specialize (Hall k Hk).
      apply has_key_lookup in Hall as [v Hv]. congruence.
    + destruct (IH Hin) as (k' & Hfail & Hk').
      unfold bind at 1. rewrite Hfail. eauto.
  - rewrite Hfail. eauto.
Qed.

(** X24.  When an entry of the driver's list lacks TABLE_NAME,
    TABLE_SCHEM or TABLE_TYPE, [get_tables] gives no response: the
    [KeyError] of the subscript leaves it, for one of these three keys, and
    the handler stays as [connect] left it. *)
Theorem get_tables_missing_key
    (m m1 : Machine) (oc : option Conn) (c : Conn) (schema : value)
    (result : list (gmap string value)) (w1 w2 : World)
    (d : gmap string value) (k : string) :
  connect drv m = (inr oc, m1) ->
  connection (self m1) = Some c ->
  conn_current_schema cat c (world m1) = (inr schema, w1) ->
  conn_tables cat c schema w1 = (inr result, w2) ->
  In d result -> In k table_keys -> d !! k = None ->
  exists k',
    get_tables drv ext cat m
    = (inl (KeyError k'), {| self := self m1; world := w2; trace := trace m1 |})
    /\ In k' table_keys.
Proof.
  intros Hc Hconn Hschema Htables Hin Hk Hnone.
  destruct (for_each_table_record_fails result d k
              {| self := self m1; world := w2; trace := trace m1 |} Hin Hk Hnone)
    as (k' & Hfail & Hk').
  exists k'. split; [| exact Hk'].
  unfold get_tables.
  unfold bind at 1. rewrite Hc.
  unfold bind at 1, get_self. cbn.
  unfold bind at 1, deref. rewrite Hconn. cbn.
  unfold bind at 1. cbn.
  unfold bind at 1, metadata_call. rewrite Hschema. cbn.
  unfold bind at 1. rewrite Htables. cbn.
  unfold bind at 1. rewrite Hfail. reflexivity.
Qed.

End More.

(** * More runs on the demo drivers *)

Lemma connect_twice_witness :
  connect Run.up Run.opened = (inr (Some 7%nat), Run.opened).
Proof.
  apply (connect_twice Run.up (Demo.fresh Demo.full_config) Run.opened 7%nat).
  vm_compute; reflexivity.
Defined.


Lemma connect_driver_failure_witness :
  exists m', connect Run.down (Demo.fresh Demo.full_config) = (inr None, m')
             /\ self m' = init Demo.full_config.
Proof.
  destruct (connect_driver_failure Run.down (Demo.fresh Demo.full_config)
              Run.dsn Demo.unreachable None)
    as (m' & H & Hself & _); [reflexivity | vm_compute; reflexivity | reflexivity |].
  exists m'. split; assumption.
Defined.

Lemma connection_string_reads_six_keys_witness :
  connection_string (<["sslmode" := VStr "require"]> Demo.full_config)
  = connection_string Demo.full_config.
Proof.
  apply connection_string_reads_six_keys.
  intros k Hk. cbn in Hk.
  repeat (destruct Hk as [<- | Hk]; [vm_compute; reflexivity |]).
  contradiction.
Defined.

Lemma native_query_missing_key_witness :
  native_query Run.up Demo.externals "select 1 from t" (Demo.fresh Demo.no_password)
  = (inl missing_parameters, Demo.fresh Demo.no_password).
Proof.
  apply (native_query_missing_key Run.up Demo.externals _ _ "password").
  - reflexivity.
  - cbn; tauto.
  - vm_compute; reflexivity.
Defined.

Lemma native_query_driver_down_witness :
  exists m',
    native_query Run.down Demo.externals "select 1 from t" (Demo.fresh Demo.full_config)
    = (inl (AttributeError "'NoneType' object has no attribute 'cursor'"), m').
Proof.
  destruct (native_query_driver_down Run.down Demo.externals "select 1 from t"
              (Demo.fresh Demo.full_config) Run.dsn Demo.unreachable None)
    as (m' & H & _); [reflexivity | vm_compute; reflexivity | reflexivity |].
  exists m'. exact H.
Defined.

Lemma native_query_cursor_error_witness :
  exists m',
    native_query (Faulty.driver (Faulty.mkFaults true false false false false false))
      Demo.externals "select 1 from t" (Demo.fresh Demo.full_config)
    = (inl Faulty.lost, m')
    /\ is_connected (self m') = true.
Proof.
  destruct (native_query_cursor_error
              (Faulty.driver (Faulty.mkFaults true false false false false false))
              Demo.externals "select 1 from t"
              (Demo.fresh Demo.full_config) Run.dsn 7%nat None None Faulty.lost)
    as (m' & H & Hflag & _);
    [reflexivity | vm_compute; reflexivity | reflexivity | reflexivity |].
  exists m'. split; assumption.
Defined.

Lemma native_query_rollback_failure_witness :
  exists m',
    native_query (Faulty.driver (Faulty.mkFaults false false false true false false))
      Demo.externals "drop t" (Demo.fresh Demo.full_config)
    = (inl Faulty.lost, m')
    /\ is_connected (self m') = true.
Proof.
  destruct (native_query_rollback_failure
              (Faulty.driver (Faulty.mkFaults false false false true false false))
              Demo.externals "drop t"
              (Demo.fresh Demo.full_config) Run.opened 7%nat 8%nat
              None None None None Demo.syntax_error Faulty.lost)
    as (m' & new & H & Hflag & _);
    [vm_compute; reflexivity | reflexivity | reflexivity | reflexivity
    | reflexivity |].
  exists m'. split; assumption.
Defined.

Lemma native_query_commit_failure_witness :
  fst (native_query (Faulty.driver (Faulty.mkFaults false false true false false false))
         Demo.externals "insert into t values (1)" (Demo.fresh Demo.full_config))
  = inr (mkResponse ERROR None (Some (exn_str Faulty.lost))).
Proof.
  refine (proj2 (proj2 (native_query_commit_failure
            (Faulty.driver (Faulty.mkFaults false false true false false false))
            Demo.externals "insert into t values (1)"
            (Demo.fresh Demo.full_config) Run.opened 7%nat 8%nat None
            (Some "INSERT INTO T VALUES (1)") (Some "INSERT INTO T VALUES (1)")
            Faulty.lost _ _ _ _ _))
            (Some "INSERT INTO T VALUES (1)") (Some "INSERT INTO T VALUES (1)") _ _ _).
  - vm_compute; reflexivity.
  - reflexivity.
  - reflexivity.
  - reflexivity.
  - reflexivity.
  - reflexivity.
  - reflexivity.
  - right. exists (Some "INSERT INTO T VALUES (1)"). reflexivity.
Defined.

Lemma native_query_result_failure_witness :
  fst (native_query Run.up Faulty.no_frames "select id, name from t"
         (Demo.fresh Demo.full_config))
  = inr (mkResponse ERROR None (Some "2 columns passed, passed data had 3 columns")).
Proof.
  refine (proj2 (proj2 (native_query_result_failure Run.up Faulty.no_frames
            "select id, name from t"
            (Demo.fresh Demo.full_config) Run.opened 7%nat 8%nat None
            (Some "SELECT ID, NAME FROM T") (Some "SELECT ID, NAME FROM T")
            Faulty.shape_error _ _ _ _ _))
            (Some "SELECT ID, NAME FROM T") (Some "SELECT ID, NAME FROM T") _ _ _).
  - vm_compute; reflexivity.
  - reflexivity.
  - reflexivity.
  - reflexivity.
  - right. eexists. split; reflexivity.
  - reflexivity.
  - reflexivity.
  - right. exists (Some "SELECT ID, NAME FROM T"). reflexivity.
Defined.

Lemma native_query_leaves_cursor_witness :
  exists new,
    trace (snd (native_query Run.up Demo.externals "drop t" (Demo.fresh Demo.full_config)))
    = trace Run.opened ++ new
    /\ filter is_cursor_exit new = [EvCursorExit 8%nat].
Proof.
  apply (native_query_leaves_cursor Run.up Demo.externals "drop t"
           (Demo.fresh Demo.full_config) Run.opened 7%nat 8%nat None).
  - vm_compute; reflexivity.
  - reflexivity.
Defined.

Lemma native_query_calls_on_success_witness :
  trace (snd (native_query Run.up Demo.externals "select id, name from t"
                (Demo.fresh Demo.full_config)))
  = [EvPconnect Run.dsn; EvCursor 7%nat; EvExecute 8%nat "SELECT ID, NAME FROM T";
     EvFetchall 8%nat; EvCommit 7%nat; EvCursorExit 8%nat; EvClose 7%nat].
Proof.
  apply (native_query_calls_on_success Run.up Demo.externals "select id, name from t"
           (Demo.fresh Demo.full_config) Run.opened 7%nat 8%nat None
           (Some "SELECT ID, NAME FROM T") (Some "SELECT ID, NAME FROM T")
           (Some "SELECT ID, NAME FROM T") (Some "SELECT ID, NAME FROM T")
           [[VInt 1; VStr "ann"]; [VInt 2; VStr "bob"]]).
  - vm_compute; reflexivity.
  - reflexivity.
  - reflexivity.
  - reflexivity.
  - reflexivity.
  - reflexivity.
  - reflexivity.
  - reflexivity.
Defined.

Lemma check_connection_missing_key_witness :
  exists m',
    check_connection Run.up (Demo.fresh Demo.no_password)
    = (inr (mkStatus false
              (Some "Required parameters (host, user, password, database) must be provided.")),
       m')
    /\ self m' = init Demo.no_password.
Proof.
  destruct (check_connection_missing_key Run.up (Demo.fresh Demo.no_password) "password")
    as (m' & H & Hself & _); [reflexivity | cbn; tauto | vm_compute; reflexivity |].
  exists m'. split; assumption.
Defined.

Lemma check_connection_connected_witness :
  check_connection Run.up Run.opened = (inr (mkStatus true None), Run.opened).
Proof.
  apply check_connection_connected. reflexivity.
Defined.


Lemma connection_data_kept_witness :
  connection_data
    (self (snd (native_query Run.up Demo.externals "drop t" (Demo.fresh Demo.full_config))))
  = Demo.full_config.
Proof.
  destruct (connection_data_kept Run.up Demo.externals DemoCatalog.metadata
              "drop t" "drop t" (VStr "T"))
    as (_ & _ & _ & _ & H & _).
  exact (H (Demo.fresh Demo.full_config) _ _ (surjective_pairing _)).
Defined.

Lemma disconnect_then_connect_witness :
  exists m1 m2,
    disconnect Run.up Run.opened = (inr tt, m1)
    /\ connect Run.up m1 = (inr (Some 7%nat), m2)
    /\ trace m2 = [EvPconnect Run.dsn; EvClose 7%nat; EvPconnect Run.dsn].
Proof.
  destruct (disconnect_then_connect Run.up Run.opened 7%nat 7%nat Run.dsn None None)
    as (m1 & m2 & H1 & _ & _ & H2 & _ & _ & H3);
    [reflexivity | reflexivity | reflexivity | vm_compute; reflexivity
    | reflexivity |].
  exists m1, m2. repeat split; assumption.
Defined.

Lemma get_columns_invalid_name_witness :
  get_columns Run.up Demo.externals DemoCatalog.metadata (VStr "") Run.opened
  = (inl invalid_table_name, Run.opened)
  /\ get_columns Run.up Demo.externals DemoCatalog.metadata (VInt 3) Run.opened
     = (inl invalid_table_name, Run.opened).
Proof.
  split; apply get_columns_invalid_name; [left | right]; reflexivity.
Defined.

Lemma get_columns_result_witness :
  fst (get_columns Run.up Demo.externals DemoCatalog.metadata (VStr "T") Run.opened)
  = inr (mkResponse TABLE
           (Some (mkDataFrame [[VStr "ID"]; [VStr "NAME"]] ["COLUMN_NAME"])) None)
  /\ fst (get_columns Run.up Demo.externals DemoCatalog.metadata (VStr "NONE") Run.opened)
     = inr (mkResponse TABLE (Some (mkDataFrame [] ["COLUMN_NAME"])) None).
Proof.
  split.
  - refine (f_equal fst (proj1 (get_columns_result Run.up Demo.externals
              DemoCatalog.metadata "T" Run.opened Run.opened (Some 7%nat) 7%nat
              [DemoCatalog.column "ID"; DemoCatalog.column "NAME"] None
              _ _ _ _ _ _))).
    + discriminate.
    + reflexivity.
    + reflexivity.
    + reflexivity.
    + repeat constructor.
    + reflexivity.
  - refine (f_equal fst (proj1 (get_columns_result Run.up Demo.externals
              DemoCatalog.metadata "NONE" Run.opened Run.opened (Some 7%nat) 7%nat
              [] None _ _ _ _ _ _))).
    + discriminate.
    + reflexivity.
    + reflexivity.
    + reflexivity.
    + constructor.
    + reflexivity.
Defined.

Lemma get_tables_result_witness :
  fst (get_tables Run.up Demo.externals DemoCatalog.metadata (Demo.fresh Demo.full_config))
  = inr (mkResponse TABLE
           (Some (mkDataFrame
                    [[VStr "T"; VStr "ALICE"; VStr "TABLE"];
                     [VStr "V"; VStr "ALICE"; VStr "VIEW"]]
                    ["TABLE_NAME"; "TABLE_SCHEMA"; "TABLE_TYPE"])) None).
Proof.
  refine (f_equal fst (proj1 (get_tables_result Run.up Demo.externals
            DemoCatalog.metadata (Demo.fresh Demo.full_config) Run.opened
            (Some 7%nat) 7%nat (VStr "ALICE")
            [DemoCatalog.entry "T" "TABLE"; DemoCatalog.entry "V" "VIEW"] None None
            _ _ _ _ _ _))).
  - vm_compute; reflexivity.
  - reflexivity.
  - reflexivity.
  - reflexivity.
  - repeat constructor.
  - reflexivity.
Defined.

Lemma metadata_leaves_connection_open_witness :
  is_connected
    (self (snd (get_tables Run.up Demo.externals DemoCatalog.metadata
                  (Demo.fresh Demo.full_config)))) = true
  /\ trace (snd (get_columns Run.up Demo.externals DemoCatalog.metadata (VStr "T")
                   (Demo.fresh Demo.full_config))) = [EvPconnect Run.dsn].
Proof.
  split.
  - refine (proj1 (metadata_leaves_connection_open Run.up Demo.externals
              DemoCatalog.metadata "T" (Demo.fresh Demo.full_config) Run.dsn 7%nat None
              _ _ _ _ _ _ (or_introl (surjective_pairing _))));
      [discriminate | reflexivity | vm_compute; reflexivity | reflexivity].
  - refine (proj2 (proj2 (metadata_leaves_connection_open Run.up Demo.externals
              DemoCatalog.metadata "T" (Demo.fresh Demo.full_config) Run.dsn 7%nat None
              _ _ _ _ _ _ (or_intror (surjective_pairing _)))));
      [discriminate | reflexivity | vm_compute; reflexivity | reflexivity].
Defined.

Lemma metadata_without_connection_witness :
  fst (get_tables Run.down Demo.externals DemoCatalog.metadata (Demo.fresh Demo.full_config))
  = inl (AttributeError "'NoneType' object has no attribute 'tables'").
Proof.
  refine (proj1 (metadata_without_connection Run.down Demo.externals
            DemoCatalog.metadata "T" (Demo.fresh Demo.full_config) Run.dsn
            Demo.unreachable None _ _ _ _ _));
    [discriminate | reflexivity | reflexivity | vm_compute; reflexivity | reflexivity].
Defined.

Lemma get_tables_missing_key_witness :
  exists k,
    fst (get_tables Run.up Demo.externals DemoCatalog.broken Run.opened)
    = inl (KeyError k)
    /\ In k table_keys.
Proof.
  destruct (get_tables_missing_key Run.up Demo.externals DemoCatalog.broken
              Run.opened Run.opened (Some 7%nat) 7%nat (VStr "ALICE")
              [DemoCatalog.entry "T" "TABLE";
               delete "TABLE_TYPE" (DemoCatalog.entry "V" "VIEW")]
              None None
              (delete "TABLE_TYPE" (DemoCatalog.entry "V" "VIEW")) "TABLE_TYPE")
    as (k & H & Hk);
    [reflexivity | reflexivity | reflexivity | reflexivity
    | cbn; tauto | cbn; tauto | vm_compute; reflexivity |].
  exists k. split; [rewrite H; reflexivity | exact Hk].
Defined.
